(** * Symbol visibility annotations of DCMTK: [dcmtk/ofstd/ofexport.h]

    The header consists of preprocessing directives only.  It is embedded as
    a directive tree and run by a small interpreter of the C preprocessor's
    conditional-inclusion and macro-definition rules over a macro
    environment.  The two macros it is there to provide, DCMTK_DECL_EXPORT
    and DCMTK_DECL_IMPORT, are read off the environment it leaves behind. *)

From stdpp Require Import gmap strings list fin_maps.

(** ** Preprocessing tokens and the macro environment *)

(** A replacement list is a sequence of preprocessing tokens. *)
Inductive pp_token : Type :=
| Ident (name : string)
| Punct (sign : string)
| Pp_number (digits : string)
| String_literal (chars : string).

#[global] Instance pp_token_eq_dec : EqDecision pp_token.
Proof. solve_decision. Defined.

(** Object-like macros currently defined, each with its replacement list. *)
Abbreviation env := (gmap string (list pp_token)).

Definition is_defined (E : env) (m : string) : bool :=
  match E !! m with
  | Some _ => true
  | None => false
  end.

(** ** Directives *)

Inductive condition : Type :=
| Ifdef (m : string)      (* #ifdef m, #if defined(m), #elif defined(m) *)
| Ifndef (m : string).    (* #ifndef m *)

#[local] Set Warnings "-register-all".

(** [If_section c group rest] is [#if c  group  #else  rest  #endif]; an
    [#elif c'] group is the [If_section c'] that makes up [rest], and a
    section without [#else] has [rest = []]. *)
Inductive directive : Type :=
| Define (m : string) (replacement : list pp_token)
| Include (path : string)
| If_section (c : condition) (group : list directive) (rest : list directive).

Definition holds (c : condition) (E : env) : bool :=
  match c with
  | Ifdef m => is_defined E m
  | Ifndef m => negb (is_defined E m)
  end.

(** [#define m replacement].  Defining a macro that is already defined is
    accepted only when the replacement list is the same (C99 6.10.3p2);
    otherwise the translation unit is ill-formed: [None].  Compilers that
    only warn there go on with the new list.  Replacement lists are
    compared token by token: the white space between tokens is not
    represented. *)
Definition define (m : string) (replacement : list pp_token) (E : env)
  : option env :=
  match E !! m with
  | None => Some (<[m := replacement]> E)
  | Some old => if decide (old = replacement) then Some E else None
  end.

Section Preprocessor.

(** What including a file does to the macro environment; [None] when
    preprocessing that file fails. *)
Variable include : string → env → option env.

Fixpoint directive_run (d : directive) (E : env) : option env :=
  match d with
  | Define m replacement => define m replacement E
  | Include path => include path E
  | If_section c group rest =>
      let fix group_run (ds : list directive) (E : env) : option env :=
        match ds with
        | [] => Some E
        | d' :: ds' =>
            match directive_run d' E with
            | Some E' => group_run ds' E'
            | None => None
            end
        end in
      if holds c E then group_run group E else group_run rest E
  end.

Fixpoint preprocess (ds : list directive) (E : env) : option env :=
  match ds with
  | [] => Some E
  | d :: ds' =>
      match directive_run d E with
      | Some E' => preprocess ds' E'
      | None => None
      end
  end.

End Preprocessor.

(** ** The header *)

(** The replacement lists that occur in the header. *)
Definition dllexport : list pp_token :=
  [Ident "__declspec"; Punct "("; Ident "dllexport"; Punct ")"].

Definition dllimport : list pp_token :=
  [Ident "__declspec"; Punct "("; Ident "dllimport"; Punct ")"].

Definition visibility_default : list pp_token :=
  [Ident "__attribute__"; Punct "("; Punct "(";
   Ident "visibility"; Punct "("; String_literal "default"; Punct ")";
   Punct ")"; Punct ")"].

Definition empty_replacement : list pp_token := [].

Definition osconfig_h : string := "dcmtk/config/osconfig.h".

(** Lines 28-42: the platform branches. *)
Definition linkage_branches : list directive :=
  [ If_section (Ifdef "DCMTK_SHARED")                           (* 28 *)
      [ If_section (Ifdef "_WIN32")                             (* 29 *)
          [ Define "DCMTK_DECL_EXPORT" dllexport;               (* 31 *)
            If_section (Ifndef "DCMTK_STATIC_FOR_SHARED")       (* 33 *)
              [ Define "DCMTK_DECL_IMPORT" dllimport ]          (* 34 *)
              [] ]                                              (* 35 *)
          [ If_section (Ifdef "HAVE_HIDDEN_VISIBILITY")         (* 36 *)
              [ Define "DCMTK_DECL_EXPORT" visibility_default ] (* 40 *)
              [] ] ]                                            (* 41 *)
      [] ].                                                     (* 42 *)

(** Lines 44-50: the fall-back definitions. *)
Definition linkage_defaults : list directive :=
  [ If_section (Ifndef "DCMTK_DECL_EXPORT")                     (* 44 *)
      [ Define "DCMTK_DECL_EXPORT" empty_replacement ]          (* 45 *)
      [];                                                       (* 46 *)
    If_section (Ifndef "DCMTK_DECL_IMPORT")                     (* 48 *)
      [ Define "DCMTK_DECL_IMPORT" empty_replacement ]          (* 49 *)
      [] ].                                                     (* 50 *)

(** Lines 23-25: the guard's own definition and the configuration header. *)
Definition preamble : list directive :=
  [ Define "OFEXPORT_H" empty_replacement;
    Include osconfig_h ].

(** Lines 22-53: the whole file, inside its include guard. *)
Definition ofexport_h : list directive :=
  [ If_section (Ifndef "OFEXPORT_H")
      (preamble ++ linkage_branches ++ linkage_defaults)
      [] ].

(** ** Configurations *)

(** The four macros the header tests, each either defined or not. *)
Record config : Type := Config {
  DCMTK_SHARED : bool;
  _WIN32 : bool;
  HAVE_HIDDEN_VISIBILITY : bool;
  DCMTK_STATIC_FOR_SHARED : bool
}.

Definition config_of (E : env) : config :=
  {| DCMTK_SHARED := is_defined E "DCMTK_SHARED";
     _WIN32 := is_defined E "_WIN32";
     HAVE_HIDDEN_VISIBILITY := is_defined E "HAVE_HIDDEN_VISIBILITY";
     DCMTK_STATIC_FOR_SHARED := is_defined E "DCMTK_STATIC_FOR_SHARED" |}.

(** The configuration that the conditionals of lines 28-50 see when the
    header is included into a translation unit whose macro environment is
    [E0]: this is a first inclusion (the guard is not yet defined), the
    configuration header has been read, and nothing has defined either
    annotation beforehand. *)
Definition configuration (include : string → env → option env) (E0 : env)
  : option config :=
  if is_defined E0 "OFEXPORT_H" then None
  else
    match include osconfig_h (<["OFEXPORT_H" := empty_replacement]> E0) with
    | None => None
    | Some E =>
        if is_defined E "DCMTK_DECL_EXPORT" || is_defined E "DCMTK_DECL_IMPORT"
        then None
        else Some (config_of E)
    end.

(** The value of a macro once the header has been processed; [None] when
    processing fails or the macro is left undefined. *)
Definition resolve (include : string → env → option env) (E0 : env)
    (m : string) : option (list pp_token) :=
  match preprocess include ofexport_h E0 with
  | Some E => E !! m
  | None => None
  end.

Definition DCMTK_DECL_EXPORT include E0 := resolve include E0 "DCMTK_DECL_EXPORT".
Definition DCMTK_DECL_IMPORT include E0 := resolve include E0 "DCMTK_DECL_IMPORT".

(** A translation unit compiled with [-D] for each macro that is set in [c],
    and a configuration header that defines nothing. *)
Definition command_line (c : config) : env :=
  let D (set : bool) (m : string) (E : env) : env :=
    if set then <[m := [Pp_number "1"]]> E else E in
  D (DCMTK_SHARED c) "DCMTK_SHARED"
    (D (_WIN32 c) "_WIN32"
       (D (HAVE_HIDDEN_VISIBILITY c) "HAVE_HIDDEN_VISIBILITY"
          (D (DCMTK_STATIC_FOR_SHARED c) "DCMTK_STATIC_FOR_SHARED" ∅))).

Definition no_definitions (path : string) (E : env) : option env := Some E.

(** A configuration header as the build system could generate it: it
    defines DCMTK_SHARED and HAVE_HIDDEN_VISIBILITY when they are set in
    [c]; any other file defines nothing. *)
Definition generated_osconfig (c : config) (path : string) (E : env)
  : option env :=
  if decide (path = osconfig_h) then
    preprocess no_definitions
      ((if DCMTK_SHARED c then [Define "DCMTK_SHARED" [Pp_number "1"]] else [])
       ++ (if HAVE_HIDDEN_VISIBILITY c
           then [Define "HAVE_HIDDEN_VISIBILITY" [Pp_number "1"]] else []))
      E
  else Some E.

(** ** What the header computes *)

(** The annotations as a table over the configuration, to be proved equal to
    what preprocessing the header gives. *)
Definition export_table (c : config) : list pp_token :=
  if DCMTK_SHARED c then
    if _WIN32 c then dllexport
    else if HAVE_HIDDEN_VISIBILITY c then visibility_default
    else empty_replacement
  else empty_replacement.

Definition import_table (c : config) : list pp_token :=
  if DCMTK_SHARED c then
    if _WIN32 c then
      if DCMTK_STATIC_FOR_SHARED c then empty_replacement else dllimport
    else empty_replacement
  else empty_replacement.

(** Sample configurations: a shared Windows build, the same statically
    linked into a re-exporting library, a Windows build whose compiler also
    reports hidden-visibility support, shared POSIX builds with and without
    hidden visibility, and a static build with every other macro set. *)
Definition windows_dll : config := Config true true false false.
Definition windows_reexport : config := Config true true false true.
Definition windows_hidden : config := Config true true true false.
Definition posix_hidden : config := Config true false true false.
Definition posix_plain : config := Config true false false false.
Definition static_all : config := Config false true true true.

(** The replacement list that lines 28-42 give each annotation, if they
    give it one. *)
Definition export_branch (c : config) : option (list pp_token) :=
  if DCMTK_SHARED c then
    if _WIN32 c then Some dllexport
    else if HAVE_HIDDEN_VISIBILITY c then Some visibility_default
    else None
  else None.

Definition import_branch (c : config) : option (list pp_token) :=
  if DCMTK_SHARED c then
    if _WIN32 c then
      if DCMTK_STATIC_FOR_SHARED c then None else Some dllimport
    else None
  else None.

(** Whether a definition may follow what is already there: a macro can only
    be defined again with the replacement list it has. *)
Definition compatible (old new : option (list pp_token)) : bool :=
  match old, new with
  | Some o, Some n => bool_decide (o = n)
  | _, _ => true
  end.

(** The value an annotation ends up with: the branch's if there is one,
    else the one it had, else empty. *)
Definition settled (old new : option (list pp_token)) : list pp_token :=
  from_option id (default empty_replacement old) new.

(** A file that includes ofexport.h itself before anything else it does. *)
Definition including_ofexport_h (include : string → env → option env)
    (path : string) (E : env) : option env :=
  match preprocess include ofexport_h E with
  | Some E' => include path E'
  | None => None
  end.

(** A translation unit that has defined DCMTK_DECL_EXPORT on its own. *)
Definition export_predefined (c : config) : env :=
  <["DCMTK_DECL_EXPORT" := [Ident "MY_EXPORT"]]> (command_line c).

(** Include files among which only the configuration header exists. *)
Definition osconfig_only (include : string → env → option env)
    (path : string) (E : env) : option env :=
  if decide (path = osconfig_h) then include path E else None.

(** What the header leaves of it when no platform branch applies. *)
Definition export_predefined_included (c : config) : env :=
  <["DCMTK_DECL_IMPORT" := empty_replacement]>
    (<["OFEXPORT_H" := empty_replacement]> (export_predefined c)).

Lemma is_defined_None (E : env) m : is_defined E m = false ↔ E !! m = None.
Proof. unfold is_defined. destruct (E !! m); split; congruence. Qed.

Lemma is_defined_insert_ne (E : env) m m' r :
  m ≠ m' → is_defined (<[m := r]> E) m' = is_defined E m'.
Proof. intros Hne. unfold is_defined. by rewrite lookup_insert_ne. Qed.

Lemma is_defined_insert_eq (E : env) m r : is_defined (<[m := r]> E) m = true.
Proof. unfold is_defined. by rewrite lookup_insert_eq. Qed.

Lemma define_fresh m r (E : env) :
  is_defined E m = false → define m r E = Some (<[m := r]> E).
Proof. intros H%is_defined_None. unfold define. by rewrite H. Qed.

(** One step of symbolic preprocessing: decide a test on a macro that was
    just defined or on one the last definitions left alone, or carry out a
    definition of a macro known to be undefined. *)
Ltac pp_step :=
  first
    [ rewrite is_defined_insert_eq
    | rewrite is_defined_insert_ne by done
    | rewrite define_fresh by (rewrite ?is_defined_insert_ne by done; assumption)
    | match goal with
      | H : is_defined ?E ?m = _ |- context [is_defined ?E ?m] => rewrite H
      end
    | progress simpl ].

Lemma configuration_inv include E0 c :
  configuration include E0 = Some c →
  ∃ E, is_defined E0 "OFEXPORT_H" = false
       ∧ include osconfig_h (<["OFEXPORT_H" := empty_replacement]> E0) = Some E
       ∧ is_defined E "DCMTK_DECL_EXPORT" = false
       ∧ is_defined E "DCMTK_DECL_IMPORT" = false
       ∧ config_of E = c.
Proof.
  unfold configuration.
  destruct (is_defined E0 "OFEXPORT_H"); [done|].
  destruct (include _ _) as [E|]; [|done].
  destruct (is_defined E "DCMTK_DECL_EXPORT") eqn:He; [done|].
  destruct (is_defined E "DCMTK_DECL_IMPORT") eqn:Hi; [done|].
  simpl. intros [= <-]. by exists E.
Qed.

(** Preprocessing the body of the header (lines 28-50) in an environment
    that has neither annotation yet adds exactly the two annotations. *)
Lemma linkage_run include (E : env) :
  is_defined E "DCMTK_DECL_EXPORT" = false →
  is_defined E "DCMTK_DECL_IMPORT" = false →
  preprocess include (linkage_branches ++ linkage_defaults) E
  = Some (<["DCMTK_DECL_IMPORT" := import_table (config_of E)]>
            (<["DCMTK_DECL_EXPORT" := export_table (config_of E)]> E)).
Proof.
  intros He Hi.
  unfold export_table, import_table, config_of; simpl.
  destruct (is_defined E "DCMTK_SHARED") eqn:Hs,
           (is_defined E "_WIN32") eqn:Hw,
           (is_defined E "HAVE_HIDDEN_VISIBILITY") eqn:Hh,
           (is_defined E "DCMTK_STATIC_FOR_SHARED") eqn:Hf;
    repeat pp_step; reflexivity.
Qed.

Lemma preprocess_cons include d ds (E : env) :
  preprocess include (d :: ds) E
  = match directive_run include d E with
    | Some E' => preprocess include ds E'
    | None => None
    end.
Proof. reflexivity. Qed.

Lemma If_section_run include c group rest (E : env) :
  directive_run include (If_section c group rest) E
  = if holds c E then preprocess include group E
    else preprocess include rest E.
Proof. reflexivity. Qed.

Lemma preprocess_app include ds1 ds2 (E : env) :
  preprocess include (ds1 ++ ds2) E
  = match preprocess include ds1 E with
    | Some E' => preprocess include ds2 E'
    | None => None
    end.
Proof.
  revert E. induction ds1 as [|d ds1 IH]; intros E; [done|].
  rewrite <- app_comm_cons, !preprocess_cons.
  destruct (directive_run include d E); [apply IH|done].
Qed.

Lemma preamble_run include (E0 : env) :
  is_defined E0 "OFEXPORT_H" = false →
  preprocess include preamble E0
  = include osconfig_h (<["OFEXPORT_H" := empty_replacement]> E0).
Proof.
  intros Hg. unfold preamble. rewrite preprocess_cons.
  change (directive_run include (Define ?m ?r) E0) with (define m r E0).
  rewrite (define_fresh _ _ _ Hg), preprocess_cons.
  change (directive_run include (Include ?p) ?E) with (include p E).
  by destruct (include _ _).
Qed.

(** A first inclusion runs the group inside the guard. *)
Lemma ofexport_h_first_inclusion include (E0 : env) :
  is_defined E0 "OFEXPORT_H" = false →
  preprocess include ofexport_h E0
  = match include osconfig_h (<["OFEXPORT_H" := empty_replacement]> E0) with
    | Some E => preprocess include (linkage_branches ++ linkage_defaults) E
    | None => None
    end.
Proof.
  intros Hg. unfold ofexport_h.
  rewrite preprocess_cons, If_section_run.
  unfold holds. rewrite Hg. change (negb false) with true. cbv iota.
  rewrite preprocess_app, preamble_run by done.
  by destruct (include _ _) as [E|]; [destruct (preprocess _ _ E)|].
Qed.

(** Any further inclusion is skipped by the guard. *)
Lemma ofexport_h_include_guard include (E0 : env) :
  is_defined E0 "OFEXPORT_H" = true →
  preprocess include ofexport_h E0 = Some E0.
Proof.
  intros Hg. unfold ofexport_h, preprocess.
  rewrite If_section_run. simpl. by rewrite Hg.
Qed.

(** The environment the header leaves behind. *)
Lemma ofexport_h_run include (E0 : env) c :
  configuration include E0 = Some c →
  ∃ E, include osconfig_h (<["OFEXPORT_H" := empty_replacement]> E0) = Some E
       ∧ preprocess include ofexport_h E0
         = Some (<["DCMTK_DECL_IMPORT" := import_table c]>
                   (<["DCMTK_DECL_EXPORT" := export_table c]> E)).
Proof.
  intros (E & Hg & Hinc & He & Hi & <-)%configuration_inv.
  exists E. split; [done|].
  rewrite ofexport_h_first_inclusion, Hinc by done.
  by apply linkage_run.
Qed.

Lemma annotations_resolved include (E0 : env) c :
  configuration include E0 = Some c →
  DCMTK_DECL_EXPORT include E0 = Some (export_table c)
  ∧ DCMTK_DECL_IMPORT include E0 = Some (import_table c).
Proof.
  intros (E & _ & Hrun)%ofexport_h_run.
  unfold DCMTK_DECL_EXPORT, DCMTK_DECL_IMPORT, resolve. rewrite Hrun.
  split.
  - rewrite lookup_insert_ne by done. apply lookup_insert_eq.
  - apply lookup_insert_eq.
Qed.

(** Every one of the sixteen configurations arises from some translation
    unit. *)
Lemma command_line_configuration c :
  configuration no_definitions (command_line c) = Some c.
Proof. destruct c as [[] [] [] []]; vm_compute; reflexivity. Qed.

Lemma generated_osconfig_configuration c :
  configuration (generated_osconfig c)
    (command_line (Config false (_WIN32 c) false (DCMTK_STATIC_FOR_SHARED c)))
  = Some c.
Proof. destruct c as [[] [] [] []]; vm_compute; reflexivity. Qed.

(** The fall-back definitions fill in whatever is still undefined and leave
    the rest alone. *)
Lemma linkage_defaults_run include (E : env) :
  preprocess include linkage_defaults E
  = Some (<["DCMTK_DECL_IMPORT" := default empty_replacement (E !! "DCMTK_DECL_IMPORT")]>
            (<["DCMTK_DECL_EXPORT" := default empty_replacement (E !! "DCMTK_DECL_EXPORT")]> E)).
Proof.
  assert (He' := eq_refl (is_defined E "DCMTK_DECL_EXPORT")).
  assert (Hi' := eq_refl (is_defined E "DCMTK_DECL_IMPORT")).
  unfold is_defined at 2 in He'. unfold is_defined at 2 in Hi'.
  destruct (E !! "DCMTK_DECL_EXPORT") as [e|] eqn:He,
           (E !! "DCMTK_DECL_IMPORT") as [i|] eqn:Hi;
    simpl; repeat pp_step; f_equal.
  - by rewrite (insert_id E _ _ He), (insert_id E _ _ Hi).
  - by rewrite (insert_id E _ _ He).
  - rewrite (insert_id _ "DCMTK_DECL_IMPORT"); [done|].
    by rewrite lookup_insert_ne.
Qed.

(** On a first inclusion, the header is lines 23-42 followed by the
    fall-back definitions. *)
Lemma ofexport_h_split include (E0 : env) :
  is_defined E0 "OFEXPORT_H" = false →
  preprocess include ofexport_h E0
  = match preprocess include (preamble ++ linkage_branches) E0 with
    | Some E => preprocess include linkage_defaults E
    | None => None
    end.
Proof.
  intros Hg. unfold ofexport_h.
  rewrite preprocess_cons, If_section_run.
  unfold holds. rewrite Hg. change (negb false) with true. cbv iota.
  rewrite app_assoc, preprocess_app.
  by destruct (preprocess _ (preamble ++ _) E0) as [E|];
    [destruct (preprocess _ _ E)|].
Qed.

(** ** Properties of the resolved annotations *)

(** Reads both annotations off the table for a configured inclusion. *)
Ltac resolved H :=
  let He := fresh "He" in
  let Hi := fresh "Hi" in
  destruct (annotations_resolved _ _ _ H) as [He Hi];
  rewrite ?He, ?Hi; clear He Hi.

(** C1: in a shared build for Windows (DCMTK_SHARED and _WIN32 defined),
    DCMTK_DECL_IMPORT is [__declspec(dllimport)] when
    DCMTK_STATIC_FOR_SHARED is not defined and is empty when it is. *)
Theorem import_shared_windows include (E0 : env) c :
  configuration include E0 = Some c →
  DCMTK_SHARED c = true →
  _WIN32 c = true →
  (DCMTK_STATIC_FOR_SHARED c = false →
   DCMTK_DECL_IMPORT include E0 = Some dllimport)
  ∧ (DCMTK_STATIC_FOR_SHARED c = true →
     DCMTK_DECL_IMPORT include E0 = Some empty_replacement).
Proof.
  intros Hc Hs Hw. resolved Hc.
  unfold import_table. rewrite Hs, Hw.
  split; intros ->; reflexivity.
Qed.

Lemma import_shared_windows_witness :
  configuration no_definitions (command_line windows_dll) = Some windows_dll
  ∧ DCMTK_DECL_IMPORT no_definitions (command_line windows_dll)
    = Some dllimport.
Proof.
  split; [vm_compute; reflexivity|].
  apply (import_shared_windows no_definitions (command_line windows_dll)
           windows_dll); vm_compute; reflexivity.
Defined.

(** C2: resolution is total.  Each of the sixteen settings of the four
    macros is the configuration of some translation unit, and for each of
    them preprocessing the header succeeds and leaves both annotations
    defined: DCMTK_DECL_EXPORT as one of the two export markers or empty,
    DCMTK_DECL_IMPORT as the import marker or empty.  Empty is the default:
    an annotation has the value lines 23-42 gave it, and is empty when they
    gave it none. *)
Theorem resolution_total (c : config) :
  configuration no_definitions (command_line c) = Some c
  ∧ ∀ include (E0 : env),
      configuration include E0 = Some c →
      ∃ (E42 E : env) e i,
        preprocess include (preamble ++ linkage_branches) E0 = Some E42
        ∧ preprocess include ofexport_h E0 = Some E
        ∧ E !! "DCMTK_DECL_EXPORT" = Some e
        ∧ E !! "DCMTK_DECL_IMPORT" = Some i
        ∧ e ∈ [dllexport; visibility_default; empty_replacement]
        ∧ i ∈ [dllimport; empty_replacement]
        ∧ e = default empty_replacement (E42 !! "DCMTK_DECL_EXPORT")
        ∧ i = default empty_replacement (E42 !! "DCMTK_DECL_IMPORT").
Proof.
  split; [apply command_line_configuration|].
  intros include E0 Hc.
  destruct (ofexport_h_run _ _ _ Hc) as (Ec & _ & Hrun).
  apply configuration_inv in Hc as (_ & Hg & _ & _ & _ & _).
  pose proof (ofexport_h_split include E0 Hg) as Hsplit.
  rewrite Hrun in Hsplit.
  destruct (preprocess include (preamble ++ linkage_branches) E0)
    as [E42|]; [|discriminate].
  rewrite linkage_defaults_run in Hsplit.
  injection Hsplit as Hfinal.
  assert (export_table c
          = default empty_replacement (E42 !! "DCMTK_DECL_EXPORT")) as He.
  { apply (f_equal (λ E : env, E !! "DCMTK_DECL_EXPORT")) in Hfinal.
    rewrite !(lookup_insert_ne _ "DCMTK_DECL_IMPORT") in Hfinal by done.
    rewrite !lookup_insert_eq in Hfinal. congruence. }
  assert (import_table c
          = default empty_replacement (E42 !! "DCMTK_DECL_IMPORT")) as Hi.
  { apply (f_equal (λ E : env, E !! "DCMTK_DECL_IMPORT")) in Hfinal.
    rewrite !lookup_insert_eq in Hfinal. congruence. }
  eexists E42, _, (export_table c), (import_table c).
  split; [reflexivity|]. split; [exact Hrun|].
  split; [by rewrite lookup_insert_ne, lookup_insert_eq|].
  split; [by rewrite lookup_insert_eq|].
  split; [|split; [|done]].
  - destruct c as [[] [] [] ?]; cbn; set_solver.
  - destruct c as [[] [] ? []]; cbn; set_solver.
Qed.

Lemma resolution_total_witness :
  ∃ (E42 E : env) e i,
    preprocess no_definitions (preamble ++ linkage_branches)
      (command_line posix_hidden) = Some E42
    ∧ preprocess no_definitions ofexport_h (command_line posix_hidden) = Some E
    ∧ E !! "DCMTK_DECL_EXPORT" = Some e
    ∧ E !! "DCMTK_DECL_IMPORT" = Some i
    ∧ e ∈ [dllexport; visibility_default; empty_replacement]
    ∧ i ∈ [dllimport; empty_replacement]
    ∧ e = default empty_replacement (E42 !! "DCMTK_DECL_EXPORT")
    ∧ i = default empty_replacement (E42 !! "DCMTK_DECL_IMPORT").
Proof.
  apply (proj2 (resolution_total posix_hidden) no_definitions
           (command_line posix_hidden)).
  vm_compute; reflexivity.
Defined.

(** C3: in a static build (DCMTK_SHARED not defined) both annotations are
    empty, whatever _WIN32, HAVE_HIDDEN_VISIBILITY and
    DCMTK_STATIC_FOR_SHARED are. *)
Theorem static_build_no_annotations include (E0 : env) c :
  configuration include E0 = Some c →
  DCMTK_SHARED c = false →
  DCMTK_DECL_EXPORT include E0 = Some empty_replacement
  ∧ DCMTK_DECL_IMPORT include E0 = Some empty_replacement.
Proof.
  intros Hc Hs. resolved Hc.
  unfold export_table, import_table. by rewrite Hs.
Qed.

Lemma static_build_no_annotations_witness :
  configuration no_definitions (command_line static_all) = Some static_all
  ∧ DCMTK_DECL_EXPORT no_definitions (command_line static_all)
    = Some empty_replacement
  ∧ DCMTK_DECL_IMPORT no_definitions (command_line static_all)
    = Some empty_replacement.
Proof.
  split; [vm_compute; reflexivity|].
  apply (static_build_no_annotations no_definitions (command_line static_all)
           static_all); vm_compute; reflexivity.
Defined.

(** C4: in a shared build for Windows, DCMTK_DECL_EXPORT is
    [__declspec(dllexport)]. *)
Theorem export_shared_windows include (E0 : env) c :
  configuration include E0 = Some c →
  DCMTK_SHARED c = true →
  _WIN32 c = true →
  DCMTK_DECL_EXPORT include E0 = Some dllexport.
Proof.
  intros Hc Hs Hw.
  destruct (ofexport_h_run _ _ _ Hc) as (E & _ & Hrun).
  unfold DCMTK_DECL_EXPORT, resolve. rewrite Hrun.
  rewrite lookup_insert_ne, lookup_insert_eq by done.
  unfold export_table. by rewrite Hs, Hw.
Qed.

Lemma export_shared_windows_witness :
  configuration no_definitions (command_line windows_reexport)
  = Some windows_reexport
  ∧ DCMTK_DECL_EXPORT no_definitions (command_line windows_reexport)
    = Some dllexport.
Proof.
  split; [vm_compute; reflexivity|].
  apply (export_shared_windows no_definitions (command_line windows_reexport)
           windows_reexport); vm_compute; reflexivity.
Defined.

(** C5: in a shared build that is not for Windows, DCMTK_DECL_EXPORT is
    [__attribute__ ((visibility("default")))] when HAVE_HIDDEN_VISIBILITY
    is defined and empty when it is not. *)
Theorem export_shared_posix include (E0 : env) c :
  configuration include E0 = Some c →
  DCMTK_SHARED c = true →
  _WIN32 c = false →
  (HAVE_HIDDEN_VISIBILITY c = true →
   DCMTK_DECL_EXPORT include E0 = Some visibility_default)
  ∧ (HAVE_HIDDEN_VISIBILITY c = false →
     DCMTK_DECL_EXPORT include E0 = Some empty_replacement).
Proof.
  intros Hc Hs Hw. resolved Hc.
  destruct c as [s w [] f]; simpl in *; subst;
    split; intros; done.
Qed.

Lemma export_shared_posix_witness :
  configuration (generated_osconfig posix_hidden) (command_line (Config false false false false))
  = Some posix_hidden
  ∧ DCMTK_DECL_EXPORT (generated_osconfig posix_hidden)
      (command_line (Config false false false false))
    = Some visibility_default.
Proof.
  split; [vm_compute; reflexivity|].
  apply (export_shared_posix (generated_osconfig posix_hidden)
           (command_line (Config false false false false)) posix_hidden);
    vm_compute; reflexivity.
Defined.

(** C6: in a shared build that is not for Windows, DCMTK_DECL_IMPORT is
    empty, whatever HAVE_HIDDEN_VISIBILITY and DCMTK_STATIC_FOR_SHARED
    are. *)
Theorem import_shared_posix include (E0 : env) c :
  configuration include E0 = Some c →
  DCMTK_SHARED c = true →
  _WIN32 c = false →
  DCMTK_DECL_IMPORT include E0 = Some empty_replacement.
Proof.
  intros Hc Hs Hw. resolved Hc.
  unfold import_table. by rewrite Hs, Hw.
Qed.

Lemma import_shared_posix_witness :
  configuration no_definitions (command_line posix_plain) = Some posix_plain
  ∧ DCMTK_DECL_IMPORT no_definitions (command_line posix_plain)
    = Some empty_replacement.
Proof.
  split; [vm_compute; reflexivity|].
  apply (import_shared_posix no_definitions (command_line posix_plain)
           posix_plain); vm_compute; reflexivity.
Defined.

(** C8: the Windows branch takes precedence.  In a shared build with both
    _WIN32 and HAVE_HIDDEN_VISIBILITY defined, DCMTK_DECL_EXPORT is
    [__declspec(dllexport)] and not the default-visibility attribute; and
    in any configuration, DCMTK_DECL_EXPORT is the default-visibility
    attribute only if _WIN32 is not defined. *)
Theorem windows_branch_precedence include (E0 : env) c :
  configuration include E0 = Some c →
  (DCMTK_SHARED c = true → _WIN32 c = true →
   HAVE_HIDDEN_VISIBILITY c = true →
   DCMTK_DECL_EXPORT include E0 = Some dllexport
   ∧ DCMTK_DECL_EXPORT include E0 ≠ Some visibility_default)
  ∧ (DCMTK_DECL_EXPORT include E0 = Some visibility_default →
     _WIN32 c = false).
Proof.
  intros Hc. resolved Hc. unfold export_table. split.
  - intros -> -> _. split; [reflexivity|discriminate].
  - destruct (_WIN32 c); [|reflexivity].
    destruct (DCMTK_SHARED c); discriminate.
Qed.

Lemma windows_branch_precedence_witness :
  configuration no_definitions (command_line windows_hidden)
  = Some windows_hidden
  ∧ DCMTK_DECL_EXPORT no_definitions (command_line windows_hidden)
    = Some dllexport
  ∧ DCMTK_DECL_EXPORT no_definitions (command_line windows_hidden)
    ≠ Some visibility_default.
Proof.
  split; [vm_compute; reflexivity|].
  apply (windows_branch_precedence no_definitions
           (command_line windows_hidden) windows_hidden);
    vm_compute; reflexivity.
Defined.

(** C9: frame of DCMTK_STATIC_FOR_SHARED.  Between two configurations that
    agree on DCMTK_SHARED, _WIN32 and HAVE_HIDDEN_VISIBILITY, that is, that
    differ at most in DCMTK_STATIC_FOR_SHARED, DCMTK_DECL_EXPORT is the
    same; DCMTK_DECL_IMPORT differs only if DCMTK_SHARED and _WIN32 are
    both defined, so in a static build and off Windows it is the same
    too. *)
Theorem static_for_shared_frame include1 (E1 : env) c1 include2 (E2 : env) c2 :
  configuration include1 E1 = Some c1 →
  configuration include2 E2 = Some c2 →
  DCMTK_SHARED c1 = DCMTK_SHARED c2 →
  _WIN32 c1 = _WIN32 c2 →
  HAVE_HIDDEN_VISIBILITY c1 = HAVE_HIDDEN_VISIBILITY c2 →
  DCMTK_DECL_EXPORT include1 E1 = DCMTK_DECL_EXPORT include2 E2
  ∧ (DCMTK_DECL_IMPORT include1 E1 ≠ DCMTK_DECL_IMPORT include2 E2 →
     DCMTK_SHARED c1 = true ∧ _WIN32 c1 = true)
  ∧ (DCMTK_SHARED c1 = false ∨ _WIN32 c1 = false →
     DCMTK_DECL_EXPORT include1 E1 = DCMTK_DECL_EXPORT include2 E2
     ∧ DCMTK_DECL_IMPORT include1 E1 = DCMTK_DECL_IMPORT include2 E2).
Proof.
  intros Hc1 Hc2 Hs Hw Hh. resolved Hc1. resolved Hc2.
  unfold export_table, import_table. rewrite <- Hs, <- Hw, <- Hh.
  split; [reflexivity|]. split.
  - destruct (DCMTK_SHARED c1), (_WIN32 c1); intros Hne; done.
  - intros [-> | ->]; [done|]. by destruct (DCMTK_SHARED c1).
Qed.

Lemma static_for_shared_frame_witness :
  DCMTK_DECL_EXPORT no_definitions (command_line windows_dll)
  = DCMTK_DECL_EXPORT no_definitions (command_line windows_reexport)
  ∧ (DCMTK_DECL_IMPORT no_definitions (command_line windows_dll)
     ≠ DCMTK_DECL_IMPORT no_definitions (command_line windows_reexport) →
     DCMTK_SHARED windows_dll = true ∧ _WIN32 windows_dll = true)
  ∧ (DCMTK_SHARED windows_dll = false ∨ _WIN32 windows_dll = false →
     DCMTK_DECL_EXPORT no_definitions (command_line windows_dll)
     = DCMTK_DECL_EXPORT no_definitions (command_line windows_reexport)
     ∧ DCMTK_DECL_IMPORT no_definitions (command_line windows_dll)
       = DCMTK_DECL_IMPORT no_definitions (command_line windows_reexport)).
Proof.
  apply (static_for_shared_frame
           no_definitions (command_line windows_dll) windows_dll
           no_definitions (command_line windows_reexport) windows_reexport);
    vm_compute; reflexivity.
Defined.

(** C10: range of the import annotation.  DCMTK_DECL_IMPORT is either
    [__declspec(dllimport)] or empty, never the default-visibility
    attribute, and HAVE_HIDDEN_VISIBILITY has no influence on it: a second
    configuration that agrees on the other three macros gives the same
    DCMTK_DECL_IMPORT. *)
Theorem import_range include (E0 : env) c :
  configuration include E0 = Some c →
  (DCMTK_DECL_IMPORT include E0 = Some dllimport
   ∨ DCMTK_DECL_IMPORT include E0 = Some empty_replacement)
  ∧ DCMTK_DECL_IMPORT include E0 ≠ Some visibility_default
  ∧ ∀ include' (E0' : env) c',
      configuration include' E0' = Some c' →
      DCMTK_SHARED c' = DCMTK_SHARED c →
      _WIN32 c' = _WIN32 c →
      DCMTK_STATIC_FOR_SHARED c' = DCMTK_STATIC_FOR_SHARED c →
      DCMTK_DECL_IMPORT include' E0' = DCMTK_DECL_IMPORT include E0.
Proof.
  intros Hc. resolved Hc. split; [|split].
  - unfold import_table.
    destruct (DCMTK_SHARED c), (_WIN32 c), (DCMTK_STATIC_FOR_SHARED c); auto.
  - unfold import_table.
    destruct (DCMTK_SHARED c), (_WIN32 c), (DCMTK_STATIC_FOR_SHARED c);
      discriminate.
  - intros include' E0' c' Hc' Hs Hw Hf. resolved Hc'.
    unfold import_table. by rewrite Hs, Hw, Hf.
Qed.

Lemma import_range_witness :
  DCMTK_DECL_IMPORT no_definitions (command_line windows_hidden)
  = DCMTK_DECL_IMPORT no_definitions (command_line windows_dll)
  ∧ DCMTK_DECL_IMPORT no_definitions (command_line windows_dll)
    ≠ Some visibility_default.
Proof.
  destruct (import_range no_definitions (command_line windows_dll) windows_dll)
    as (_ & Hne & Hframe); [vm_compute; reflexivity|].
  split; [|exact Hne].
  apply (Hframe no_definitions (command_line windows_hidden) windows_hidden);
    vm_compute; reflexivity.
Defined.

(** ** The header in an arbitrary macro environment *)

Lemma define_run m r (E : env) :
  define m r E
  = if compatible (E !! m) (Some r) then Some (<[m := r]> E) else None.
Proof.
  unfold define, compatible.
  destruct (E !! m) as [old|] eqn:Hm; [|done].
  case_decide; case_bool_decide; try done.
  subst. by rewrite insert_id.
Qed.

Lemma compatible_None old : compatible old None = true.
Proof. by destruct old. Qed.

Lemma linkage_branches_run include (E : env) :
  preprocess include linkage_branches E
  = if is_defined E "DCMTK_SHARED" then
      if is_defined E "_WIN32" then
        match define "DCMTK_DECL_EXPORT" dllexport E with
        | Some E' =>
            if is_defined E' "DCMTK_STATIC_FOR_SHARED" then Some E'
            else define "DCMTK_DECL_IMPORT" dllimport E'
        | None => None
        end
      else if is_defined E "HAVE_HIDDEN_VISIBILITY"
           then define "DCMTK_DECL_EXPORT" visibility_default E
           else Some E
    else Some E.
Proof.
  simpl.
  destruct (is_defined E "DCMTK_SHARED"); [|done].
  destruct (is_defined E "_WIN32").
  - destruct (define _ _ E) as [E'|]; [|done].
    destruct (is_defined E' _); simpl; [done|].
    by destruct (define _ _ E').
  - destruct (is_defined E "HAVE_HIDDEN_VISIBILITY"); simpl; [|done].
    by destruct (define _ _ E).
Qed.

(** Lines 28-50 in any environment: they fail when a branch would redefine
    an annotation differently, and otherwise settle both annotations and
    leave everything else as it was. *)
Lemma linkage_run_general include (E : env) :
  preprocess include (linkage_branches ++ linkage_defaults) E
  = if compatible (E !! "DCMTK_DECL_EXPORT") (export_branch (config_of E))
       && compatible (E !! "DCMTK_DECL_IMPORT") (import_branch (config_of E))
    then Some (<["DCMTK_DECL_IMPORT" :=
                   settled (E !! "DCMTK_DECL_IMPORT") (import_branch (config_of E))]>
                 (<["DCMTK_DECL_EXPORT" :=
                      settled (E !! "DCMTK_DECL_EXPORT") (export_branch (config_of E))]> E))
    else None.
Proof.
  rewrite preprocess_app, linkage_branches_run.
  set (defaults := preprocess include linkage_defaults).
  unfold export_branch, import_branch, config_of; simpl.
  destruct (is_defined E "DCMTK_SHARED") eqn:Hs,
           (is_defined E "_WIN32") eqn:Hw,
           (is_defined E "HAVE_HIDDEN_VISIBILITY") eqn:Hh,
           (is_defined E "DCMTK_STATIC_FOR_SHARED") eqn:Hf;
    rewrite ?compatible_None, ?define_run;
    repeat match goal with
      | |- context [compatible ?o (Some ?n)] =>
          destruct (compatible o (Some n)) eqn:?; simpl
      end.
  all: try done.
  all: rewrite ?is_defined_insert_ne, ?Hf by done.
  all: rewrite ?define_run, ?lookup_insert_ne by done.
  all: repeat match goal with
      | H : compatible ?o ?n = _ |- context [compatible ?o ?n] => rewrite H
      end.
  all: try done.
  all: subst defaults; try (rewrite linkage_defaults_run; f_equal).
  all: unfold settled; simpl.
  all: apply map_eq; intros k.
  all: destruct (decide (k = "DCMTK_DECL_IMPORT")) as [->|];
       [|destruct (decide (k = "DCMTK_DECL_EXPORT")) as [->|]];
       simplify_map_eq; done.
Qed.

Lemma ofexport_h_run_general include (E0 : env) :
  is_defined E0 "OFEXPORT_H" = false →
  preprocess include ofexport_h E0
  = match include osconfig_h (<["OFEXPORT_H" := empty_replacement]> E0) with
    | Some E =>
        if compatible (E !! "DCMTK_DECL_EXPORT") (export_branch (config_of E))
           && compatible (E !! "DCMTK_DECL_IMPORT") (import_branch (config_of E))
        then Some (<["DCMTK_DECL_IMPORT" :=
                       settled (E !! "DCMTK_DECL_IMPORT")
                         (import_branch (config_of E))]>
                     (<["DCMTK_DECL_EXPORT" :=
                          settled (E !! "DCMTK_DECL_EXPORT")
                            (export_branch (config_of E))]> E))
        else None
    | None => None
    end.
Proof.
  intros Hg. rewrite ofexport_h_first_inclusion by done.
  destruct (include _ _) as [E|]; [apply linkage_run_general|done].
Qed.

(** A successful first inclusion, taken apart. *)
Lemma ofexport_h_success include (E0 E E1 : env) :
  is_defined E0 "OFEXPORT_H" = false →
  include osconfig_h (<["OFEXPORT_H" := empty_replacement]> E0) = Some E →
  preprocess include ofexport_h E0 = Some E1 →
  compatible (E !! "DCMTK_DECL_EXPORT") (export_branch (config_of E)) = true
  ∧ compatible (E !! "DCMTK_DECL_IMPORT") (import_branch (config_of E)) = true
  ∧ E1 = <["DCMTK_DECL_IMPORT" :=
             settled (E !! "DCMTK_DECL_IMPORT") (import_branch (config_of E))]>
           (<["DCMTK_DECL_EXPORT" :=
                settled (E !! "DCMTK_DECL_EXPORT") (export_branch (config_of E))]> E).
Proof.
  intros Hg Hinc. rewrite ofexport_h_run_general, Hinc by done.
  destruct (compatible _ (export_branch _)); [|done].
  destruct (compatible _ (import_branch _)); [|done].
  simpl. by intros [= <-].
Qed.

(** ** What the outcome depends on *)




(** ** Further properties of the header *)

(** X1: the include guard.  Once the header has been included, and the
    configuration header has not undefined OFEXPORT_H, including it again
    changes nothing: two inclusions in a row are one. *)
Theorem second_inclusion_skipped include (E0 E : env) :
  is_defined E0 "OFEXPORT_H" = false →
  include osconfig_h (<["OFEXPORT_H" := empty_replacement]> E0) = Some E →
  is_defined E "OFEXPORT_H" = true →
  preprocess include (ofexport_h ++ ofexport_h) E0
  = preprocess include ofexport_h E0.
Proof.
  intros Hg Hinc HgE. rewrite preprocess_app.
  destruct (preprocess include ofexport_h E0) as [E1|] eqn:Hrun; [|done].
  apply ofexport_h_include_guard.
  destruct (ofexport_h_success _ _ _ _ Hg Hinc Hrun) as (_ & _ & ->).
  by rewrite !is_defined_insert_ne.
Qed.

Lemma second_inclusion_skipped_witness :
  preprocess no_definitions (ofexport_h ++ ofexport_h) (command_line windows_dll)
  = preprocess no_definitions ofexport_h (command_line windows_dll).
Proof.
  apply (second_inclusion_skipped no_definitions (command_line windows_dll)
           (<["OFEXPORT_H" := empty_replacement]> (command_line windows_dll)));
    vm_compute; reflexivity.
Defined.

(** X2: the header touches the two annotations only.  After a successful
    first inclusion every macro other than DCMTK_DECL_EXPORT and
    DCMTK_DECL_IMPORT is defined or undefined, and with the same
    replacement list, exactly as it was once the configuration header had
    been read. *)
Theorem header_touches_annotations_only include (E0 E E1 : env) :
  is_defined E0 "OFEXPORT_H" = false →
  include osconfig_h (<["OFEXPORT_H" := empty_replacement]> E0) = Some E →
  preprocess include ofexport_h E0 = Some E1 →
  ∀ m, m ≠ "DCMTK_DECL_EXPORT" → m ≠ "DCMTK_DECL_IMPORT" → E1 !! m = E !! m.
Proof.
  intros Hg Hinc Hrun m He Hi.
  destruct (ofexport_h_success _ _ _ _ Hg Hinc Hrun) as (_ & _ & ->).
  by rewrite !lookup_insert_ne.
Qed.

Lemma header_touches_annotations_only_witness :
  preprocess no_definitions ofexport_h (command_line windows_dll)
  = Some (<["DCMTK_DECL_IMPORT" := dllimport]>
            (<["DCMTK_DECL_EXPORT" := dllexport]>
               (<["OFEXPORT_H" := empty_replacement]>
                  (command_line windows_dll))))
  ∧ (<["DCMTK_DECL_IMPORT" := dllimport]>
       (<["DCMTK_DECL_EXPORT" := dllexport]>
          (<["OFEXPORT_H" := empty_replacement]>
             (command_line windows_dll)))) !! "DCMTK_SHARED"
    = (<["OFEXPORT_H" := empty_replacement]> (command_line windows_dll))
        !! "DCMTK_SHARED".
Proof.
  split; [vm_compute; reflexivity|].
  apply (header_touches_annotations_only no_definitions
           (command_line windows_dll)
           (<["OFEXPORT_H" := empty_replacement]> (command_line windows_dll)));
    [vm_compute; reflexivity|reflexivity|vm_compute; reflexivity
    |discriminate|discriminate].
Defined.

(** X3: whenever a first inclusion succeeds, both annotations are defined
    afterwards, also in a translation unit that had defined one of them
    itself. *)
Theorem annotations_always_defined include (E0 E1 : env) :
  is_defined E0 "OFEXPORT_H" = false →
  preprocess include ofexport_h E0 = Some E1 →
  is_defined E1 "DCMTK_DECL_EXPORT" = true
  ∧ is_defined E1 "DCMTK_DECL_IMPORT" = true.
Proof.
  intros Hg Hrun.
  destruct (include osconfig_h (<["OFEXPORT_H" := empty_replacement]> E0))
    as [E|] eqn:Hinc.
  - destruct (ofexport_h_success _ _ _ _ Hg Hinc Hrun) as (_ & _ & ->).
    split; [|apply is_defined_insert_eq].
    rewrite is_defined_insert_ne by done. apply is_defined_insert_eq.
  - rewrite ofexport_h_first_inclusion, Hinc in Hrun by done. discriminate.
Qed.

Lemma annotations_always_defined_witness :
  preprocess no_definitions ofexport_h (export_predefined posix_plain)
  = Some (export_predefined_included posix_plain)
  ∧ is_defined (export_predefined_included posix_plain) "DCMTK_DECL_EXPORT"
    = true
  ∧ is_defined (export_predefined_included posix_plain) "DCMTK_DECL_IMPORT"
    = true.
Proof.
  split; [vm_compute; reflexivity|].
  apply (annotations_always_defined no_definitions
           (export_predefined posix_plain)
           (export_predefined_included posix_plain));
    vm_compute; reflexivity.
Defined.

(** X4: a static build cannot fail.  When DCMTK_SHARED is not defined, a
    first inclusion succeeds whatever else is defined, and each annotation
    keeps the replacement list the translation unit gave it, or becomes
    empty if it gave none. *)
Theorem static_build_keeps_predefined include (E0 E : env) :
  is_defined E0 "OFEXPORT_H" = false →
  include osconfig_h (<["OFEXPORT_H" := empty_replacement]> E0) = Some E →
  is_defined E "DCMTK_SHARED" = false →
  ∃ E1 : env,
    preprocess include ofexport_h E0 = Some E1
    ∧ E1 !! "DCMTK_DECL_EXPORT"
      = Some (default empty_replacement (E !! "DCMTK_DECL_EXPORT"))
    ∧ E1 !! "DCMTK_DECL_IMPORT"
      = Some (default empty_replacement (E !! "DCMTK_DECL_IMPORT")).
Proof.
  intros Hg Hinc Hs.
  rewrite ofexport_h_run_general, Hinc by done.
  unfold export_branch, import_branch, config_of; simpl. rewrite Hs.
  rewrite !compatible_None. simpl.
  eexists. split; [reflexivity|].
  by rewrite lookup_insert_ne, !lookup_insert_eq.
Qed.

Lemma static_build_keeps_predefined_witness :
  ∃ E1 : env,
    preprocess no_definitions ofexport_h (export_predefined static_all)
    = Some E1
    ∧ E1 !! "DCMTK_DECL_EXPORT" = Some [Ident "MY_EXPORT"]
    ∧ E1 !! "DCMTK_DECL_IMPORT" = Some empty_replacement.
Proof.
  destruct (static_build_keeps_predefined no_definitions
              (export_predefined static_all)
              (<["OFEXPORT_H" := empty_replacement]>
                 (export_predefined static_all)))
    as (E1 & Hrun & He & Hi); [vm_compute; reflexivity..|].
  exists E1. split; [exact Hrun|]. split; [exact He|exact Hi].
Defined.

(** X6: the two markers go together.  When the header resolves
    DCMTK_DECL_IMPORT to [__declspec(dllimport)], it resolves
    DCMTK_DECL_EXPORT to [__declspec(dllexport)]; and the two annotations
    are equal only when both are empty. *)
Theorem import_marker_with_export_marker include (E0 : env) c :
  configuration include E0 = Some c →
  (DCMTK_DECL_IMPORT include E0 = Some dllimport →
   DCMTK_DECL_EXPORT include E0 = Some dllexport)
  ∧ (DCMTK_DECL_EXPORT include E0 = DCMTK_DECL_IMPORT include E0 →
     DCMTK_DECL_EXPORT include E0 = Some empty_replacement).
Proof.
  intros Hc. resolved Hc. unfold export_table, import_table.
  destruct (DCMTK_SHARED c), (_WIN32 c), (HAVE_HIDDEN_VISIBILITY c),
           (DCMTK_STATIC_FOR_SHARED c); split; intros; done.
Qed.

Lemma import_marker_with_export_marker_witness :
  DCMTK_DECL_IMPORT no_definitions (command_line windows_dll) = Some dllimport
  ∧ DCMTK_DECL_EXPORT no_definitions (command_line windows_dll)
    = Some dllexport.
Proof.
  split; [vm_compute; reflexivity|].
  apply (import_marker_with_export_marker no_definitions
           (command_line windows_dll) windows_dll);
    vm_compute; reflexivity.
Defined.

(** X7: the guard is defined before the configuration header is read, so
    a configuration header that includes ofexport.h in turn finds the guard
    set and the inner inclusion is skipped: the outcome is that of the
    configuration header without the inner inclusion. *)
Theorem circular_inclusion_harmless include (E0 : env) :
  is_defined E0 "OFEXPORT_H" = false →
  preprocess (including_ofexport_h include) ofexport_h E0
  = preprocess include ofexport_h E0.
Proof.
  intros Hg. rewrite !ofexport_h_run_general by done.
  unfold including_ofexport_h.
  rewrite ofexport_h_include_guard by apply is_defined_insert_eq.
  reflexivity.
Qed.

Lemma circular_inclusion_harmless_witness :
  preprocess (including_ofexport_h (generated_osconfig posix_hidden))
    ofexport_h ∅
  = preprocess (generated_osconfig posix_hidden) ofexport_h ∅.
Proof.
  apply (circular_inclusion_harmless (generated_osconfig posix_hidden) ∅).
  vm_compute; reflexivity.
Defined.

(** X8: the annotations in a translation unit that may have defined them
    itself.  After a successful first inclusion, an annotation that a
    platform branch sets has the branch's marker, and any other keeps the
    replacement list it had after the configuration header, or is empty if
    it had none. *)
Theorem annotations_with_predefinitions include (E0 E E1 : env) :
  is_defined E0 "OFEXPORT_H" = false →
  include osconfig_h (<["OFEXPORT_H" := empty_replacement]> E0) = Some E →
  preprocess include ofexport_h E0 = Some E1 →
  E1 !! "DCMTK_DECL_EXPORT"
  = Some (if is_defined E "DCMTK_SHARED" then
            if is_defined E "_WIN32" then dllexport
            else if is_defined E "HAVE_HIDDEN_VISIBILITY"
                 then visibility_default
                 else default empty_replacement (E !! "DCMTK_DECL_EXPORT")
          else default empty_replacement (E !! "DCMTK_DECL_EXPORT"))
  ∧ E1 !! "DCMTK_DECL_IMPORT"
    = Some (if is_defined E "DCMTK_SHARED" then
              if is_defined E "_WIN32" then
                if is_defined E "DCMTK_STATIC_FOR_SHARED"
                then default empty_replacement (E !! "DCMTK_DECL_IMPORT")
                else dllimport
              else default empty_replacement (E !! "DCMTK_DECL_IMPORT")
            else default empty_replacement (E !! "DCMTK_DECL_IMPORT")).
Proof.
  intros Hg Hinc Hrun.
  destruct (ofexport_h_success _ _ _ _ Hg Hinc Hrun) as (_ & _ & ->).
  rewrite lookup_insert_ne, !lookup_insert_eq by done.
  unfold settled, export_branch, import_branch, config_of; simpl.
  destruct (is_defined E "DCMTK_SHARED"), (is_defined E "_WIN32"),
           (is_defined E "HAVE_HIDDEN_VISIBILITY"),
           (is_defined E "DCMTK_STATIC_FOR_SHARED"); done.
Qed.

Lemma annotations_with_predefinitions_witness :
  preprocess no_definitions ofexport_h (export_predefined posix_plain)
  = Some (export_predefined_included posix_plain)
  ∧ export_predefined_included posix_plain !! "DCMTK_DECL_EXPORT"
    = Some [Ident "MY_EXPORT"]
  ∧ export_predefined_included posix_plain !! "DCMTK_DECL_IMPORT"
    = Some empty_replacement.
Proof.
  split; [vm_compute; reflexivity|].
  exact (annotations_with_predefinitions no_definitions
           (export_predefined posix_plain)
           (<["OFEXPORT_H" := empty_replacement]> (export_predefined posix_plain))
           (export_predefined_included posix_plain)
           eq_refl eq_refl ltac:(vm_compute; reflexivity)).
Defined.

(** X9: the header reads one file only.  What it does depends on the
    included files through the configuration header alone: with two sets of
    include files that agree on what dcmtk/config/osconfig.h does at that
    point, the outcome is the same. *)
Theorem only_osconfig_is_included include1 include2 (E0 : env) :
  include1 osconfig_h (<["OFEXPORT_H" := empty_replacement]> E0)
  = include2 osconfig_h (<["OFEXPORT_H" := empty_replacement]> E0) →
  preprocess include1 ofexport_h E0 = preprocess include2 ofexport_h E0.
Proof.
  intros Hinc.
  destruct (is_defined E0 "OFEXPORT_H") eqn:Hg.
  - by rewrite !ofexport_h_include_guard.
  - by rewrite !ofexport_h_run_general, Hinc.
Qed.

Lemma only_osconfig_is_included_witness :
  preprocess (osconfig_only (generated_osconfig posix_hidden))
    ofexport_h (command_line windows_dll)
  = preprocess (generated_osconfig posix_hidden)
      ofexport_h (command_line windows_dll).
Proof.
  apply (only_osconfig_is_included
           (osconfig_only (generated_osconfig posix_hidden))
           (generated_osconfig posix_hidden) (command_line windows_dll)).
  vm_compute; reflexivity.
Defined.
